(** * muse-pipeline: the FastAPI service of [archive/services/pipeline/app/main.py]

    The module declares one application object, one request schema and two
    endpoint functions:

      - [app = FastAPI(title="muse-pipeline")]
      - [class ConvertRequest(BaseModel)] with the single field
        [document_url: str]
      - [@app.get("/health") async def health()]
      - [@app.post("/convert") async def convert(req: ConvertRequest)]

    The endpoint functions are embedded as the pure functions they are (they
    are coroutines without any [await], so each runs to completion in one
    step).  What surrounds them -- routing, reading and validating the
    request body, encoding the response, the status codes -- is done by the
    FastAPI, Starlette and pydantic libraries ([main.py] pins no version;
    the model follows FastAPI 0.115, Starlette 0.46 and pydantic 2); the
    part of it that the two decorators and the type annotation select is
    embedded in [Module pydantic] and [Module fastapi] below, each
    definition naming the library code it stands for.

    Not modelled: the resource limits of the interpreter while a response is
    encoded (recursion depth); the [msg], [ctx] and [url] entries of a
    validation error, which its type determines; headers. *)

From Stdlib Require Import ZArith.
From Stdlib Require Import Floats.SpecFloat.
From stdpp Require Import gmap strings list fin_maps.

#[local] Set Warnings "-register-all".

(** ** Python values

    A request body after [json.loads], and what an endpoint returns: Python
    [None], [bool], [int], [float], [str], [list], and [dict] with string
    keys.  A [float] is an IEEE 754 double, which can be infinite or a NaN:
    [json.loads] returns [inf] for the literal [1e400] and accepts the
    literals [Infinity] and [NaN].  A [dict] is a finite map: its keys are
    unique and two dicts with the same items are equal.

    A [str] is held as its UTF-8 bytes; a lone surrogate code point, which
    [json.loads] returns for an escape such as ["\ud800"] and which UTF-8
    cannot encode, is held as the three bytes that the [surrogatepass] error
    handler writes for it (ED A0 80 for U+D800). *)

Inductive Json : Type :=
  | JNull
  | JBool (b : bool)
  | JInt (z : Z)
  | JFloat (f : spec_float)
  | JStr (s : string)
  | JArr (l : list Json)
  | JObj (m : gmap string Json).

Abbreviation JDict := (gmap string Json).

(** [body.get(key)] for a body that may or may not be a dict. *)
Definition member (key : string) (j : Json) : option Json :=
  match j with
  | JObj m => m !! key
  | _ => None
  end.

(** Well-formed UTF-8 (the Unicode standard's table of byte sequences):
    [s.encode("utf-8")] succeeds on a [str] and [b.decode()] on [bytes]
    exactly when the bytes held are well formed.  The bytes of a lone
    surrogate (ED followed by A0..BF) are not. *)
Definition byte (c : Ascii.ascii) : N := Ascii.N_of_ascii c.

Definition between (lo hi : N) (c : Ascii.ascii) : bool :=
  ((lo <=? byte c) && (byte c <=? hi))%N.

Definition continuation : Ascii.ascii -> bool := between 128 191.

Fixpoint utf8 (s : string) : bool :=
  match s with
  | EmptyString => true
  | String c0 s1 =>
      let b0 := byte c0 in
      if (b0 <? 128)%N then utf8 s1
      else if (b0 <? 194)%N then false
      else if (b0 <? 224)%N then
        match s1 with
        | String c1 s2 => continuation c1 && utf8 s2
        | _ => false
        end
      else if (b0 <? 240)%N then
        match s1 with
        | String c1 (String c2 s3) =>
            (if (b0 =? 224)%N then between 160 191 c1
             else if (b0 =? 237)%N then between 128 159 c1
             else continuation c1)
            && continuation c2 && utf8 s3
        | _ => false
        end
      else if (b0 <? 245)%N then
        match s1 with
        | String c1 (String c2 (String c3 s4)) =>
            (if (b0 =? 240)%N then between 144 191 c1
             else if (b0 =? 244)%N then between 128 143 c1
             else continuation c1)
            && continuation c2 && continuation c3 && utf8 s4
        | _ => false
        end
      else false
  end.

(** [math.isfinite] *)
Definition finite (f : spec_float) : bool :=
  match f with
  | S754_infinity _ | S754_nan => false
  | _ => true
  end.

(** Whether [JSONResponse.render] succeeds on a value:
    [[
    json.dumps(content, ensure_ascii=False, allow_nan=False, ...).encode("utf-8")
    ]]
    [allow_nan=False] makes [json.dumps] raise [ValueError] on an infinite or
    NaN float, and [encode] raises [UnicodeEncodeError] on a string or a key
    with a lone surrogate. *)
Fixpoint renderable (j : Json) : bool :=
  match j with
  | JNull | JBool _ | JInt _ => true
  | JFloat f => finite f
  | JStr s => utf8 s
  | JArr l => forallb renderable l
  | JObj m => map_fold (fun k v acc => utf8 k && renderable v && acc) true m
  end.

(** [jsonable_encoder] on such a value: scalars are returned as they are,
    lists and dicts are rebuilt, and -- [sqlalchemy_safe] being [True] by
    default -- the keys of a dict that start with ["_sa"] are left out. *)
Definition sa_key (k : string) : bool := String.prefix "_sa" k.

Fixpoint jsonable_encoder (j : Json) : Json :=
  match j with
  | JArr l => JArr (map jsonable_encoder l)
  | JObj m =>
      JObj (map_fold (fun k v acc =>
                        if sa_key k then acc else <[k := jsonable_encoder v]> acc)
              ∅ m)
  | _ => j
  end.

(** The same on the dict an endpoint returns. *)
Definition encoded (d : JDict) : JDict :=
  map_fold (fun k v acc => if sa_key k then acc else <[k := jsonable_encoder v]> acc)
    ∅ d.

(** ** pydantic: [BaseModel] and the schema [ConvertRequest] *)

Module pydantic.

(** The error types that occur. *)
Inductive ErrorType : Set :=
  | missing
  | string_type
  | model_attributes_type
  | json_invalid.

(** An item of a location: a key or an index. *)
Inductive LocItem : Set :=
  | Key (k : string)
  | Index (i : Z).

(** [ErrorDetails]: the type of the error, where it is, and the input that
    was refused there. *)
Record ErrorDetails : Type := {
  error_type : ErrorType;
  loc : list LocItem;
  input : Json
}.

(** Validation returns an instance or raises [ValidationError] with its
    list of errors. *)
Inductive Validated (A : Type) : Type :=
  | Valid (x : A)
  | Invalid (errors : list ErrorDetails).
Arguments Valid {A} x.
Arguments Invalid {A} errors.

(** A [BaseModel] subclass is a type together with its validator
    ([validate_python] of its type adapter). *)
Class BaseModel (A : Type) := model_validate : Json -> Validated A.

(** A required field annotated [str], read from a dict: the key has to be
    present and its value has to be a [str], which is taken as it is (no
    stripping, no case folding; no length or pattern constraint is
    declared, and the characters are not looked at).  A missing key is
    reported with the whole dict as input; a value that is [None], a
    number, a boolean, a list or a dict is reported as [string_type] with
    that value as input (a number is not turned into a string). *)
Definition str_field (key : string) (m : JDict) : Validated string :=
  match m !! key with
  | Some (JStr s) => Valid s
  | Some v => Invalid [{| error_type := string_type; loc := [Key key]; input := v |}]
  | None => Invalid [{| error_type := missing; loc := [Key key]; input := JObj m |}]
  end.

End pydantic.

(** [[
class ConvertRequest(BaseModel):
    # Placeholder schema; real fields to be added later
    document_url: str
]]
    No [model_config] is given, so keys of the body that are not fields of
    the schema are ignored (pydantic's default [extra = 'ignore']).  An
    input that is not a dict is refused as a whole. *)
Record ConvertRequest : Type := { document_url : string }.

#[global] Instance ConvertRequest_model : pydantic.BaseModel ConvertRequest :=
  fun body =>
    match body with
    | JObj m =>
        match pydantic.str_field "document_url" m with
        | pydantic.Valid s => pydantic.Valid {| document_url := s |}
        | pydantic.Invalid errors => pydantic.Invalid errors
        end
    | _ =>
        pydantic.Invalid
          [{| pydantic.error_type := pydantic.model_attributes_type;
              pydantic.loc := [];
              pydantic.input := body |}]
    end.

(** ** The endpoint functions *)

(** [[
async def health():
    return {"status": "ok", "service": "pipeline"}
]] *)
Definition health (_ : unit) : JDict :=
  {[ "status" := JStr "ok"; "service" := JStr "pipeline" ]}.

(** [[
async def convert(req: ConvertRequest):
    # Business logic will be implemented later. Return a placeholder response for now.
    return {"status": "ok", "message": "conversion endpoint placeholder",
            "document_url": req.document_url}
]] *)
Definition convert (req : ConvertRequest) : JDict :=
  {[ "status" := JStr "ok";
     "message" := JStr "conversion endpoint placeholder";
     "document_url" := JStr (document_url req) ]}.

(** ** FastAPI: routes, requests, responses *)

Module fastapi.

Import pydantic.

Inductive Method : Set := GET | POST | PUT | PATCH | DELETE | HEAD | OPTIONS.

#[global] Instance Method_eq_dec : EqDecision Method.
Proof. solve_decision. Defined.

(** The two shapes of endpoint function that [main.py] registers: one
    without parameters, and one whose single parameter is annotated with a
    [BaseModel] subclass, which FastAPI reads from the request body. *)
Inductive Endpoint : Type :=
  | NoParams (f : unit -> JDict)
  | BodyParam {A : Type} `{BaseModel A} (f : A -> JDict).

(** An [APIRoute].  [route_status_code] is the decorator's [status_code]
    argument, [None] when it is not given. *)
Record Route : Type := {
  route_path : string;
  route_methods : list Method;
  route_status_code : option nat;
  route_endpoint : Endpoint
}.

(** The application object: the only module-level object of [main.py]
    besides the class and the two functions, hence all the state the
    process holds between two requests. *)
Record FastAPI : Type := { title : string; routes : list Route }.

(** [FastAPI(title=...)] *)
Definition new (t : string) : FastAPI := {| title := t; routes := [] |}.

(** [app.api_route]: the decorators append a route to [app.router.routes]. *)
Definition add_api_route (ms : list Method) (p : string) (sc : option nat)
    (e : Endpoint) (a : FastAPI) : FastAPI :=
  {| title := title a;
     routes := routes a ++
       [{| route_path := p; route_methods := ms;
           route_status_code := sc; route_endpoint := e |}] |}.

(** [@app.get(path)] and [@app.post(path)], no [status_code] given. *)
Definition get (p : string) (e : Endpoint) : FastAPI -> FastAPI :=
  add_api_route [GET] p None e.
Definition post (p : string) (e : Endpoint) : FastAPI -> FastAPI :=
  add_api_route [POST] p None e.

(** The body of a request, as reading it comes out for an endpoint with a
    body parameter (the first part of the handler that
    [get_request_handler] builds):
    [[
    body_bytes = await request.body()
    if body_bytes:
        ... if there is no Content-Type, or it is application/json or
            application/...+json:  json_body = await request.json()
        if json_body != Undefined: body = json_body
        else: body = body_bytes
    except json.JSONDecodeError as e: raise RequestValidationError(...)
    except Exception as e: raise HTTPException(status_code=400, ...)
    ]] *)
Inductive Body : Type :=
  | Empty                    (* no bytes *)
  | Parsed (j : Json)        (* a JSON content type or none; [json.loads] returned [j] *)
  | Undecodable (pos : Z)    (* [json.loads] raised [JSONDecodeError] at [pos] *)
  | Unreadable               (* [json.loads] raised another exception *)
  | Raw (bytes : string).    (* another content type: the bytes as they are *)

(** A request as the application sees it. *)
Record Request : Type := {
  method : Method;
  path : string;
  body : Body
}.

(** Why the framework, and not an endpoint, answered. *)
Inductive Failure : Type :=
  | NotFound                  (* no route for the path *)
  | MethodNotAllowed          (* a route for the path, none for the method *)
  | RequestValidationError (errors : list ErrorDetails)
                              (* the body does not validate *)
  | BodyParsingError          (* [HTTPException(400)]: the body cannot be read *)
  | InternalServerError.      (* an exception nobody handles *)

(** Content of a response: what the endpoint returned, encoded as JSON,
    or the framework's error detail. *)
Inductive Content : Type :=
  | Returned (d : JDict)
  | Detail (e : Failure).

Record Response : Type := { status_code : nat; content : Content }.

(** The framework's status codes: a route without [status_code] answers
    200; the default handlers answer 400, 404, 405, 422 and 500. *)
Definition HTTP_200_OK : nat := 200.
Definition HTTP_400_BAD_REQUEST : nat := 400.
Definition HTTP_404_NOT_FOUND : nat := 404.
Definition HTTP_405_METHOD_NOT_ALLOWED : nat := 405.
Definition HTTP_422_UNPROCESSABLE_ENTITY : nat := 422.
Definition HTTP_500_INTERNAL_SERVER_ERROR : nat := 500.

Definition failure_status (e : Failure) : nat :=
  match e with
  | NotFound => HTTP_404_NOT_FOUND
  | MethodNotAllowed => HTTP_405_METHOD_NOT_ALLOWED
  | RequestValidationError _ => HTTP_422_UNPROCESSABLE_ENTITY
  | BodyParsingError => HTTP_400_BAD_REQUEST
  | InternalServerError => HTTP_500_INTERNAL_SERVER_ERROR
  end.

Definition fail (e : Failure) : Response :=
  {| status_code := failure_status e; content := Detail e |}.

(** Whether the content can be rendered.  The detail of a validation
    error holds the inputs that were refused; the other details are fixed
    texts. *)
Definition encodable (c : Content) : bool :=
  match c with
  | Returned d => renderable (JObj d)
  | Detail (RequestValidationError errors) =>
      forallb (fun e => renderable (input e)) errors
  | Detail _ => true
  end.

(** [JSONResponse(content, status_code)]: the content is rendered when the
    response is built.  When that raises, in the endpoint's handler or in
    the handler of a validation error, nothing handles the exception and
    the server error middleware answers 500. *)
Definition JSONResponse (sc : nat) (c : Content) : Response :=
  if encodable c then {| status_code := sc; content := c |}
  else fail InternalServerError.

(** [request_validation_exception_handler]:
    [[
    JSONResponse(status_code=HTTP_422_UNPROCESSABLE_ENTITY,
                 content={"detail": jsonable_encoder(exc.errors())})
    ]] *)
Definition encoded_error (e : ErrorDetails) : ErrorDetails :=
  {| error_type := error_type e; loc := loc e;
     input := jsonable_encoder (input e) |}.

Definition unprocessable (errors : list ErrorDetails) : Response :=
  JSONResponse HTTP_422_UNPROCESSABLE_ENTITY
    (Detail (RequestValidationError (encoded_error <$> errors))).

(** [_regenerate_error_with_loc(errors, loc_prefix=("body",))] *)
Definition at_body (e : ErrorDetails) : ErrorDetails :=
  {| error_type := error_type e; loc := Key "body" :: loc e; input := input e |}.

(** Routing ([Router.app]): the first route whose path and method both
    match handles the request; failing that, a route whose path alone
    matches answers 405; failing that, 404.  The paths of [main.py] have
    no parameters, so a path matches when it is equal.  The routes FastAPI
    adds on its own for the API documentation ([/docs], [/redoc],
    [/openapi.json]) and the redirection of a path that differs from a
    route by a trailing slash are left out: the properties below are about
    [/health], [/convert] and [/status/{job_id}], which they do not touch. *)
Inductive Match : Type :=
  | Full (r : Route)
  | Partial
  | NoMatch.

Fixpoint lookup_route (rs : list Route) (m : Method) (p : string) : Match :=
  match rs with
  | [] => NoMatch
  | r :: rs' =>
      if bool_decide (route_path r = p) then
        if bool_decide (m ∈ route_methods r) then Full r
        else match lookup_route rs' m p with
             | Full r' => Full r'
             | _ => Partial
             end
      else lookup_route rs' m p
  end.

(** Calling the endpoint of a matched route (the handler that
    [get_request_handler] builds).  An endpoint without parameters is
    called without the body being read.  For an endpoint with a body
    parameter:
      - a body that cannot be read is answered 400, one that is not JSON
        422 with a [json_invalid] error whose input is [{}];
      - no body, or the JSON [null], is a missing required field
        ([_validate_value_with_model_field], [value is None]);
      - bytes of another content type are not a dict: the error echoes
        them, decoded by [jsonable_encoder];
      - otherwise the schema validates the parsed body; its errors are
        answered by the handler of [RequestValidationError], the endpoint
        not being called;
      - a valid body is passed to the endpoint, and what it returns is,
        once encoded ([serialize_response]), the content of a
        [JSONResponse] with the route's status code. *)
Definition call (r : Route) (req : Request) : Response :=
  let sc := default HTTP_200_OK (route_status_code r) in
  match route_endpoint r with
  | NoParams f => JSONResponse sc (Returned (encoded (f tt)))
  | BodyParam f =>
      match body req with
      | Unreadable => fail BodyParsingError
      | Undecodable pos =>
          unprocessable [{| error_type := json_invalid;
                            loc := [Key "body"; Index pos];
                            input := JObj ∅ |}]
      | Empty | Parsed JNull =>
          unprocessable [{| error_type := missing;
                            loc := [Key "body"];
                            input := JNull |}]
      | Raw bytes =>
          unprocessable [{| error_type := model_attributes_type;
                            loc := [Key "body"];
                            input := JStr bytes |}]
      | Parsed j =>
          match model_validate j with
          | Valid x => JSONResponse sc (Returned (encoded (f x)))
          | Invalid errors => unprocessable (at_body <$> errors)
          end
      end
  end.

(** One request: the response, and the application afterwards.  Neither
    routing nor the endpoints of [main.py] assign to the application. *)
Definition handle (a : FastAPI) (req : Request) : Response * FastAPI :=
  match lookup_route (routes a) (method req) (path req) with
  | Full r => (call r req, a)
  | Partial => (fail MethodNotAllowed, a)
  | NoMatch => (fail NotFound, a)
  end.

(** A run of the server: requests are handled one after the other. *)
Fixpoint serve (a : FastAPI) (reqs : list Request) : list Response * FastAPI :=
  match reqs with
  | [] => ([], a)
  | req :: reqs' =>
      let '(resp, a') := handle a req in
      let '(resps, a'') := serve a' reqs' in
      (resp :: resps, a'')
  end.

(** A field of the JSON object a response carries. *)
Definition field (key : string) (resp : Response) : option Json :=
  match content resp with
  | Returned d => d !! key
  | Detail _ => None
  end.

End fastapi.

Import fastapi.

(** ** The application of [main.py]

    [[
app = FastAPI(title="muse-pipeline")

@app.get("/health")
async def health(): ...

@app.post("/convert")
async def convert(req: ConvertRequest): ...
]] *)
Definition app : FastAPI :=
  post "/convert" (BodyParam convert)
    (get "/health" (NoParams health)
      (new "muse-pipeline")).

(** The requests the service is specified for. *)
Definition GET_health : Request :=
  {| method := GET; path := "/health"; body := Empty |}.
Definition POST_convert (b : Json) : Request :=
  {| method := POST; path := "/convert"; body := Parsed b |}.
Definition GET_status (job_id : string) : Request :=
  {| method := GET; path := "/status/" +:+ job_id; body := Empty |}.

(** The response to one request, and the application after a history of
    requests served from the start of the process. *)
Definition respond (a : FastAPI) (req : Request) : Response := (handle a req).1.
Definition after (history : list Request) : FastAPI := (serve app history).2.

(** The job identifier a response issues, if any: its [job_id] field, when
    that is a string. *)
Definition job_id_of (resp : Response) : option string :=
  match field "job_id" resp with
  | Some (JStr s) => Some s
  | _ => None
  end.

(** The routes the two decorators registered. *)
Definition health_route : Route :=
  {| route_path := "/health"; route_methods := [GET];
     route_status_code := None; route_endpoint := NoParams health |}.
Definition convert_route : Route :=
  {| route_path := "/convert"; route_methods := [POST];
     route_status_code := None; route_endpoint := BodyParam convert |}.

(** The placeholder response of [/convert] for a given [document_url]. *)
Definition placeholder (s : string) : Response :=
  {| status_code := 200;
     content := Returned {[ "status" := JStr "ok";
                            "message" := JStr "conversion endpoint placeholder";
                            "document_url" := JStr s ]} |}.

(** The answer to an exception that nothing handles. *)
Definition server_error : Response :=
  {| status_code := 500; content := Detail InternalServerError |}.

(** A JSON value that is neither a string nor a container: [null], a
    boolean, an integer or a finite float. *)
Definition plain (v : Json) : bool :=
  match v with
  | JNull | JBool _ | JInt _ => true
  | JFloat f => finite f
  | _ => false
  end.

(** Bodies used in the examples. *)
Definition doc_pdf : Json := JObj {[ "document_url" := JStr "http://x/doc.pdf" ]}.
Definition malformed_123 : Json := JObj {[ "document_url" := JInt 123 ]}.

(** The first body again, with keys the schema does not have. *)
Definition doc_pdf_more : Json :=
  JObj {[ "document_url" := JStr "http://x/doc.pdf";
          "format" := JStr "pdf";
          "priority" := JInt 3 ]}.

(** The string ["\ud800"], a lone surrogate, and a body that holds it. *)
Definition lone_surrogate : string :=
  String (Ascii.ascii_of_N 237) (String (Ascii.ascii_of_N 160)
    (String (Ascii.ascii_of_N 128) EmptyString)).
Definition doc_surrogate : Json := JObj {[ "document_url" := JStr lone_surrogate ]}.

(** [{"document_url": 1e400}]: the number is read as [inf]. *)
Definition doc_1e400 : Json :=
  JObj {[ "document_url" := JFloat (S754_infinity false) ]}.
(** * Properties *)

(** ** Encoding *)

Lemma renderable_obj (m : gmap string Json) :
  renderable (JObj m) = true
  ↔ map_Forall (λ k v, utf8 k = true ∧ renderable v = true) m.
Proof.
  simpl.
  apply (map_fold_weak_ind
    (λ r m, r = true ↔ map_Forall (λ k v, utf8 k = true ∧ renderable v = true) m)).
  - split; [intros _; apply map_Forall_empty | done].
  - intros k v m' r Hk IH. rewrite map_Forall_insert by done.
    rewrite !andb_true_iff, IH. tauto.
Qed.

Lemma convert_renderable (x : ConvertRequest) :
  renderable (JObj (convert x)) = utf8 (document_url x).
Proof.
  destruct (utf8 (document_url x)) eqn:Hu.
  - apply renderable_obj. unfold convert.
    repeat apply map_Forall_insert_2; done.
  - apply not_true_iff_false. intros Hr%renderable_obj.
    destruct (Hr "document_url" (JStr (document_url x))) as [_ Hs]; [done|].
    simpl in Hs. congruence.
Qed.

Lemma convert_encoded (x : ConvertRequest) : encoded (convert x) = convert x.
Proof. reflexivity. Qed.

Lemma plain_encoded v : plain v = true → jsonable_encoder v = v.
Proof. by destruct v. Qed.

Lemma unprocessable_cases errors :
  unprocessable errors
  = {| status_code := 422;
       content := Detail (RequestValidationError (encoded_error <$> errors)) |}
  ∨ unprocessable errors = server_error.
Proof.
  unfold unprocessable, JSONResponse. destruct (encodable _); [by left | by right].
Qed.

(** ** Routing and the state of the application *)

Lemma routes_app : routes app = [health_route; convert_route].
Proof. reflexivity. Qed.

Lemma lookup_health : lookup_route (routes app) GET "/health" = Full health_route.
Proof. reflexivity. Qed.

Lemma lookup_convert : lookup_route (routes app) POST "/convert" = Full convert_route.
Proof. reflexivity. Qed.

Lemma lookup_status job_id :
  lookup_route (routes app) GET ("/status/" +:+ job_id) = NoMatch.
Proof. reflexivity. Qed.

Lemma handle_unchanged a req : (handle a req).2 = a.
Proof. unfold handle. by destruct (lookup_route _ _ _). Qed.

Lemma serve_unchanged a reqs : (serve a reqs).2 = a.
Proof.
  revert a. induction reqs as [|req reqs IH]; intros a; [done|].
  simpl. pose proof (handle_unchanged a req) as Hh.
  destruct (handle a req) as [resp a']. simpl in Hh. subst a'.
  specialize (IH a). by destruct (serve a reqs).
Qed.

Lemma serve_responses a reqs : (serve a reqs).1 = respond a <$> reqs.
Proof.
  induction reqs as [|req reqs IH]; [done|].
  simpl. unfold respond at 1. pose proof (handle_unchanged a req) as Hh.
  destruct (handle a req) as [resp a']. simpl in Hh. subst a'.
  destruct (serve a reqs). simpl in *. by rewrite IH.
Qed.

Lemma after_app history : after history = app.
Proof. apply serve_unchanged. Qed.

(** ** What the schema accepts *)

Lemma validate_str b s :
  member "document_url" b = Some (JStr s) →
  (pydantic.model_validate b : pydantic.Validated ConvertRequest)
  = pydantic.Valid {| document_url := s |}.
Proof.
  destruct b; try discriminate. simpl. intros Hm.
  unfold pydantic.model_validate, ConvertRequest_model, pydantic.str_field.
  by rewrite Hm.
Qed.

Lemma validate_Valid b (x : ConvertRequest) :
  pydantic.model_validate b = pydantic.Valid x →
  member "document_url" b = Some (JStr (document_url x)).
Proof.
  unfold pydantic.model_validate, ConvertRequest_model, pydantic.str_field.
  destruct b as [| | | | | |m]; try discriminate. simpl.
  destruct (m !! "document_url") as [[]|]; try discriminate.
  by intros [= <-].
Qed.

(** ** One request to each path *)

Lemma handle_health b :
  handle app {| method := GET; path := "/health"; body := b |}
  = ({| status_code := 200; content := Returned (health tt) |}, app).
Proof. reflexivity. Qed.

Lemma handle_convert bd :
  handle app {| method := POST; path := "/convert"; body := bd |}
  = (call convert_route {| method := POST; path := "/convert"; body := bd |}, app).
Proof. reflexivity. Qed.

Lemma handle_status job_id : handle app (GET_status job_id) = (fail NotFound, app).
Proof. reflexivity. Qed.

(** A submission whose [document_url] is a string is passed to [convert];
    the response is sent when the string can be encoded. *)
Lemma handle_convert_str b s :
  member "document_url" b = Some (JStr s) →
  handle app (POST_convert b)
  = (if utf8 s then placeholder s else server_error, app).
Proof.
  intros Hm. unfold POST_convert. rewrite handle_convert. f_equal.
  unfold call. simpl.
  destruct b as [| | | | | |m]; try discriminate.
  rewrite (validate_str _ _ Hm). unfold JSONResponse, encodable.
  rewrite convert_encoded, convert_renderable. simpl. by destruct (utf8 s).
Qed.

Lemma handle_convert_valid b s :
  member "document_url" b = Some (JStr s) → utf8 s = true →
  handle app (POST_convert b) = (placeholder s, app).
Proof. intros Hm Hu. by rewrite (handle_convert_str _ _ Hm), Hu. Qed.

(** Any other submission is answered by the handler of the validation
    error. *)
Lemma handle_convert_invalid b :
  (∀ s, member "document_url" b ≠ Some (JStr s)) →
  ∃ errors, handle app (POST_convert b) = (unprocessable errors, app).
Proof.
  intros Hn. unfold POST_convert. rewrite handle_convert. unfold call. simpl.
  destruct b as [| | | | | |m]; try by eexists.
  destruct (pydantic.model_validate (JObj m)) as [x|errors] eqn:Hv; [|by eexists].
  apply validate_Valid in Hv. by destruct (Hn (document_url x)).
Qed.


(** The responses of the route /convert to a POST, whatever the body. *)
Lemma call_convert_cases bd :
  let resp := call convert_route {| method := POST; path := "/convert"; body := bd |} in
  (∃ s, resp = placeholder s)
  ∨ (∃ errors, resp = {| status_code := 422;
                         content := Detail (RequestValidationError errors) |})
  ∨ resp = fail BodyParsingError
  ∨ resp = server_error.
Proof.
  assert (Hu : ∀ errors,
    (∃ errors', unprocessable errors
       = {| status_code := 422; content := Detail (RequestValidationError errors') |})
    ∨ unprocessable errors = server_error).
  { intros errors. destruct (unprocessable_cases errors); [left; by eexists | by right]. }
  assert (Hp : ∀ j, let resp := call convert_route (POST_convert j) in
    (∃ s, resp = placeholder s)
    ∨ (∃ errors, resp = {| status_code := 422;
                           content := Detail (RequestValidationError errors) |})
    ∨ resp = fail BodyParsingError
    ∨ resp = server_error).
  { intros j. simpl.
    destruct (member "document_url" j) as [[| | | |s| |]|] eqn:Hm.
    5: { pose proof (handle_convert_str _ _ Hm) as Hh. unfold POST_convert in Hh.
         rewrite handle_convert in Hh. apply (f_equal fst) in Hh. simpl in Hh.
         unfold POST_convert. rewrite Hh.
         destruct (utf8 s); [left; by eexists | by do 3 right]. }
    all: destruct (handle_convert_invalid j) as [errors Hh]; [by rewrite Hm|];
      unfold POST_convert in Hh; rewrite handle_convert in Hh;
      apply (f_equal fst) in Hh; simpl in Hh; unfold POST_convert; rewrite Hh;
      destruct (Hu errors) as [?|?]; [by right; left | by do 3 right]. }
  destruct bd as [|j|pos| |bytes]; simpl.
  - destruct (Hu [{| pydantic.error_type := pydantic.missing;
                     pydantic.loc := [pydantic.Key "body"];
                     pydantic.input := JNull |}]) as [?|?];
      [by right; left | by do 3 right].
  - apply Hp.
  - right; left. by eexists.
  - by do 2 right; left.
  - unfold call. simpl.
    match goal with |- context [unprocessable ?e] => destruct (Hu e) as [?|?] end;
      [by right; left | by do 3 right].
Qed.

(** No response to a POST to /convert has a [job_id] field. *)
Lemma convert_no_job_id bd :
  field "job_id" (respond app {| method := POST; path := "/convert"; body := bd |}) = None.
Proof.
  unfold respond. rewrite handle_convert. simpl.
  destruct (call_convert_cases bd) as [[s ->]|[[errors ->]|[->| ->]]]; reflexivity.
Qed.

(** The status of a POST to /convert is one of four. *)
Lemma convert_status_cases bd :
  let sc := status_code (respond app {| method := POST; path := "/convert"; body := bd |}) in
  sc = 200 ∨ sc = 400 ∨ sc = 422 ∨ sc = 500.
Proof.
  unfold respond. rewrite handle_convert. simpl.
  destruct (call_convert_cases bd) as [[s ->]|[[errors ->]|[->| ->]]]; simpl; tauto.
Qed.

Example health_example :
  respond app GET_health
  = {| status_code := 200;
       content := Returned {[ "status" := JStr "ok"; "service" := JStr "pipeline" ]} |}.
Proof. reflexivity. Qed.

Example convert_example : respond app (POST_convert doc_pdf) = placeholder "http://x/doc.pdf".
Proof. reflexivity. Qed.

Example convert_malformed_example :
  respond app (POST_convert malformed_123)
  = {| status_code := 422;
       content := Detail (RequestValidationError
         [{| pydantic.error_type := pydantic.string_type;
             pydantic.loc := [pydantic.Key "body"; pydantic.Key "document_url"];
             pydantic.input := JInt 123 |}]) |}.
Proof. reflexivity. Qed.

Example convert_without_body_example :
  respond app {| method := POST; path := "/convert"; body := Empty |}
  = {| status_code := 422;
       content := Detail (RequestValidationError
         [{| pydantic.error_type := pydantic.missing;
             pydantic.loc := [pydantic.Key "body"];
             pydantic.input := JNull |}]) |}.
Proof. reflexivity. Qed.

Example convert_unreadable_example :
  respond app {| method := POST; path := "/convert"; body := Unreadable |}
  = {| status_code := 400; content := Detail BodyParsingError |}.
Proof. reflexivity. Qed.

Example convert_surrogate_example :
  respond app (POST_convert doc_surrogate) = server_error.
Proof. reflexivity. Qed.

Example convert_1e400_example :
  respond app (POST_convert doc_1e400) = server_error.
Proof. reflexivity. Qed.

Example convert_echo_1e400_example :
  respond app (POST_convert (JObj {[ "x" := JFloat (S754_infinity false) ]}))
  = server_error.
Proof. reflexivity. Qed.

Example convert_echo_sa_example :
  respond app (POST_convert (JObj {[ "_sa_x" := JFloat (S754_infinity false) ]}))
  = {| status_code := 422;
       content := Detail (RequestValidationError
         [{| pydantic.error_type := pydantic.missing;
             pydantic.loc := [pydantic.Key "body"; pydantic.Key "document_url"];
             pydantic.input := JObj ∅ |}]) |}.
Proof. reflexivity. Qed.

Example convert_text_plain_example :
  respond app {| method := POST; path := "/convert"; body := Raw "document_url=x" |}
  = {| status_code := 422;
       content := Detail (RequestValidationError
         [{| pydantic.error_type := pydantic.model_attributes_type;
             pydantic.loc := [pydantic.Key "body"];
             pydantic.input := JStr "document_url=x" |}]) |}.
Proof. reflexivity. Qed.

Example status_example :
  respond app (GET_status "42") = {| status_code := 404; content := Detail NotFound |}.
Proof. reflexivity. Qed.

Example wrong_method_example :
  respond app {| method := GET; path := "/convert"; body := Empty |}
  = {| status_code := 405; content := Detail MethodNotAllowed |}.
Proof. reflexivity. Qed.

(** ** POST /convert: a valid submission *)

(** C1, as stated, fails: the claim is that every valid submission is
    answered with status 202 and a JSON object with a string [job_id].  The
    body [{"document_url": "http://x/doc.pdf"}] is valid, and its response
    has status 200 and no [job_id] field at all. *)
Lemma convert_not_202_job_id :
  member "document_url" doc_pdf = Some (JStr "http://x/doc.pdf")
  ∧ ¬ (status_code (respond app (POST_convert doc_pdf)) = 202
       ∧ ∃ id, field "job_id" (respond app (POST_convert doc_pdf)) = Some (JStr id)).
Proof.
  split; [reflexivity|]. intros [H202 _].
  vm_compute in H202. discriminate H202.
Qed.

(** C1, amended: for every valid submission body (a JSON object whose
    [document_url] is a string that UTF-8 can encode, so that the response
    can be sent), POST /convert responds with status 200 -- the route
    declares no status code -- and the JSON object
    [{"status": "ok", "message": "conversion endpoint placeholder",
      "document_url": <the submitted string>}], which has no [job_id]
    field. *)
Theorem convert_valid_200_placeholder b s :
  member "document_url" b = Some (JStr s) →
  utf8 s = true →
  status_code (respond app (POST_convert b)) = 200
  ∧ content (respond app (POST_convert b))
    = Returned {[ "status" := JStr "ok";
                  "message" := JStr "conversion endpoint placeholder";
                  "document_url" := JStr s ]}
  ∧ field "job_id" (respond app (POST_convert b)) = None.
Proof.
  intros Hm Hu. unfold respond. rewrite (handle_convert_valid _ _ Hm Hu). by simpl.
Qed.

Lemma convert_valid_200_placeholder_witness :
  member "document_url" doc_pdf = Some (JStr "http://x/doc.pdf")
  ∧ utf8 "http://x/doc.pdf" = true
  ∧ status_code (respond app (POST_convert doc_pdf)) = 200
  ∧ content (respond app (POST_convert doc_pdf))
    = Returned {[ "status" := JStr "ok";
                  "message" := JStr "conversion endpoint placeholder";
                  "document_url" := JStr "http://x/doc.pdf" ]}
  ∧ field "job_id" (respond app (POST_convert doc_pdf)) = None.
Proof.
  split; [reflexivity|]. split; [reflexivity|].
  apply (convert_valid_200_placeholder doc_pdf "http://x/doc.pdf"); reflexivity.
Defined.

(** ** GET /health *)

(** C2: whatever requests the process has served before, and whatever body
    the request carries, GET /health responds with status 200 and the JSON
    object [{"status": "ok", "service": "pipeline"}]. *)
Theorem health_always_200 (history : list Request) (b : Body) :
  respond (after history) {| method := GET; path := "/health"; body := b |}
  = {| status_code := 200;
       content := Returned {[ "status" := JStr "ok"; "service" := JStr "pipeline" ]} |}.
Proof. rewrite after_app. unfold respond. by rewrite handle_health. Qed.

(** ** POST /convert echoes [document_url] *)

(** C3: for every accepted request (one answered with status 200), the
    [document_url] of the request body is a string and the [document_url]
    of the response is that same string. *)
Theorem convert_echoes_document_url b :
  status_code (respond app (POST_convert b)) = 200 →
  ∃ s, member "document_url" b = Some (JStr s)
       ∧ field "document_url" (respond app (POST_convert b)) = Some (JStr s)
       ∧ field "document_url" (respond app (POST_convert b)) = member "document_url" b.
Proof.
  intros H200. unfold respond in *.
  destruct (member "document_url" b) as [[| | | |s| |]|] eqn:Hm.
  5: { rewrite (handle_convert_str _ _ Hm) in *. simpl in *.
       destruct (utf8 s); [|discriminate H200]. by exists s. }
  all: destruct (handle_convert_invalid b) as [errors Hh]; [by rewrite Hm|];
    rewrite Hh in H200; simpl in H200;
    by destruct (unprocessable_cases errors) as [Hu|Hu]; rewrite Hu in H200.
Qed.

Lemma convert_echoes_document_url_witness :
  status_code (respond app (POST_convert doc_pdf)) = 200
  ∧ ∃ s, member "document_url" doc_pdf = Some (JStr s)
       ∧ field "document_url" (respond app (POST_convert doc_pdf)) = Some (JStr s)
       ∧ field "document_url" (respond app (POST_convert doc_pdf))
         = member "document_url" doc_pdf.
Proof.
  split; [reflexivity|]. apply (convert_echoes_document_url doc_pdf). reflexivity.
Defined.

(** ** POST /convert: a malformed submission *)




(** ** GET /status/{job_id} *)

(** C5, as stated, fails: the claim promises status 200 with the job's
    state for a known [job_id].  The application has no status route and no
    job table; after the valid submission [{"document_url":
    "http://x/doc.pdf"}] there is no [job_id] at all for which
    GET /status/{job_id} is answered with 200. *)
Lemma status_never_200 :
  ¬ ∃ job_id,
      status_code (respond (after [POST_convert doc_pdf]) (GET_status job_id)) = 200.
Proof.
  intros [job_id H200]. rewrite after_app in H200.
  unfold respond in H200. rewrite handle_status in H200. discriminate H200.
Qed.

(** C5, amended: for every [job_id], and whatever requests were served
    before, GET /status/{job_id} responds with status 404 -- no route
    matches the path, and no [job_id] is ever known to the service -- and
    leaves the application as it was. *)
Theorem status_always_404 (history : list Request) (job_id : string) :
  handle (after history) (GET_status job_id)
  = ({| status_code := 404; content := Detail NotFound |}, after history).
Proof. rewrite after_app. by rewrite handle_status. Qed.

(** ** Job identifiers *)

(** C6, as stated, fails: the claim is that each submission returns a job
    identifier distinct from those issued before.  Two valid submissions in
    a row return no identifiers: there is no list of pairwise distinct
    identifiers that their responses carry. *)
Lemma submissions_issue_no_job_id :
  ¬ ∃ ids : list string,
      job_id_of <$> (serve app (POST_convert <$> [doc_pdf; doc_pdf])).1 = Some <$> ids
      ∧ NoDup ids.
Proof.
  intros [ids [Hids _]]. vm_compute in Hids.
  destruct ids as [|id ids]; discriminate Hids.
Qed.

(** C6, amended: for every sequence of submissions, no response issues a
    job identifier (none has a [job_id] field), and each response is the
    one its body gets when submitted alone, so that submissions with equal
    bodies get equal responses. *)
Theorem submissions_responses (bodies : list Json) :
  (serve app (POST_convert <$> bodies)).1
  = (λ b, respond app (POST_convert b)) <$> bodies
  ∧ Forall (λ resp, field "job_id" resp = None ∧ job_id_of resp = None)
      (serve app (POST_convert <$> bodies)).1.
Proof.
  rewrite serve_responses, <- list_fmap_compose. split; [done|].
  apply Forall_fmap, Forall_forall. intros b _. simpl.
  unfold job_id_of, POST_convert. by rewrite convert_no_job_id.
Qed.

(** ** Capacity *)

(** C8, as stated, fails: the claim is that a submission is refused with
    status 429 once the pending queue has reached its bound.  There is no
    queue and no bound: whatever number [n] of valid submissions came
    before, none of them completed, the next valid submission is not
    answered with 429. *)
Lemma convert_never_429 :
  ¬ ∃ n : nat,
      status_code (respond (after (replicate n (POST_convert doc_pdf)))
                     (POST_convert doc_pdf)) = 429.
Proof.
  intros [n H429]. rewrite after_app in H429. vm_compute in H429. discriminate H429.
Qed.

(** C8, amended: POST /convert never fails with status 429.  Whatever
    requests were served before and whatever the body, a submission is not
    answered with 429, and the application is left as it was (there are no
    jobs whose state could change). *)
Theorem convert_never_refuses_for_capacity (history : list Request) (bd : Body) :
  status_code (respond (after history)
                 {| method := POST; path := "/convert"; body := bd |}) ≠ 429
  ∧ (handle (after history)
       {| method := POST; path := "/convert"; body := bd |}).2 = after history.
Proof.
  rewrite handle_unchanged, after_app. split; [|done].
  pose proof (convert_status_cases bd) as Hs. simpl in Hs. lia.
Qed.

(** ** What /convert does not check *)

(** C9, as stated, fails: the claim is that every string is accepted and
    gets the placeholder response.  The body [{"document_url": "\ud800"}]
    has a string [document_url]; [convert] returns for it, but the response
    cannot be encoded and the service answers 500. *)
Lemma convert_surrogate_not_placeholder :
  member "document_url" doc_surrogate = Some (JStr lone_surrogate)
  ∧ respond app (POST_convert doc_surrogate) ≠ placeholder lone_surrogate
  ∧ status_code (respond app (POST_convert doc_surrogate)) = 500.
Proof.
  split; [reflexivity|]. split; [|reflexivity].
  intros Heq. apply (f_equal status_code) in Heq. vm_compute in Heq. discriminate Heq.
Qed.

(** C9, amended: for every request body in which [document_url] is a string
    [s] that UTF-8 can encode -- any such string: the empty one, one that
    is not a URL, one that names an unsupported format -- POST /convert
    returns its placeholder response for [s], whatever was served before;
    no check of the URL or of a format is made, and the response is the
    same when a [format] field of any value is put into the body and when
    the field is taken out of it.  (For a string that cannot be encoded the
    answer is 500.) *)
Theorem convert_accepts_any_string
    (history : list Request) (m : gmap string Json) (s : string) (fmt : Json) :
  m !! "document_url" = Some (JStr s) →
  utf8 s = true →
  respond (after history) (POST_convert (JObj m)) = placeholder s
  ∧ respond (after history) (POST_convert (JObj (<["format" := fmt]> m))) = placeholder s
  ∧ respond (after history) (POST_convert (JObj (delete "format" m))) = placeholder s.
Proof.
  intros Hm Hu. rewrite after_app. unfold respond. split_and!.
  - by rewrite (handle_convert_valid _ s).
  - rewrite (handle_convert_valid _ s); [done| |done].
    simpl. by rewrite lookup_insert_ne.
  - rewrite (handle_convert_valid _ s); [done| |done].
    simpl. by rewrite lookup_delete_ne.
Qed.

Lemma convert_accepts_any_string_witness :
  ({[ "document_url" := JStr ""; "format" := JStr "docx" ]} : gmap string Json)
    !! "document_url" = Some (JStr "")
  ∧ utf8 "" = true
  ∧ respond (after [GET_health])
      (POST_convert (JObj {[ "document_url" := JStr ""; "format" := JStr "docx" ]}))
    = placeholder ""
  ∧ respond (after [GET_health])
      (POST_convert (JObj (<["format" := JNull]>
         {[ "document_url" := JStr ""; "format" := JStr "docx" ]})))
    = placeholder ""
  ∧ respond (after [GET_health])
      (POST_convert (JObj (delete "format"
         {[ "document_url" := JStr ""; "format" := JStr "docx" ]})))
    = placeholder "".
Proof.
  split; [reflexivity|]. split; [reflexivity|].
  apply (convert_accepts_any_string [GET_health]
           {[ "document_url" := JStr ""; "format" := JStr "docx" ]} "" JNull);
    reflexivity.
Defined.

Example convert_not_a_url :
  respond app (POST_convert (JObj {[ "document_url" := JStr "not a url" ]}))
  = placeholder "not a url".
Proof. reflexivity. Qed.

Example convert_unsupported_format :
  respond app (POST_convert (JObj {[ "document_url" := JStr "ftp://h/file.xyz";
                                     "format" := JStr "xyz" ]}))
  = placeholder "ftp://h/file.xyz".
Proof. reflexivity. Qed.

(** * Further properties of the schema and the two routes *)

(** X1 ([ConvertRequest], [convert]): a POST to /convert is answered with
    200 exactly when its body was read as JSON and is an object whose
    [document_url] is a string that UTF-8 can encode.  No body, a body that
    is not JSON or not sent as JSON, a body that is not an object, a missing
    key, a [document_url] that is not a string, and a string with a lone
    surrogate are all answered otherwise. *)
Theorem convert_accepts_exactly_string_document_url (bd : Body) :
  status_code (respond app {| method := POST; path := "/convert"; body := bd |}) = 200
  ↔ ∃ b s, bd = Parsed b ∧ member "document_url" b = Some (JStr s) ∧ utf8 s = true.
Proof.
  split.
  - intros H200.
    destruct bd as [|b|pos| |bytes]; try (vm_compute in H200; discriminate H200).
    + fold (POST_convert b) in H200. unfold respond in H200.
      destruct (member "document_url" b) as [[| | | |s| |]|] eqn:Hm.
      5: { rewrite (handle_convert_str _ _ Hm) in H200. simpl in H200.
           destruct (utf8 s) eqn:Hu; [|discriminate H200]. by exists b, s. }
      all: destruct (handle_convert_invalid b) as [errors Hh]; [by rewrite Hm|];
        rewrite Hh in H200; simpl in H200;
        by destruct (unprocessable_cases errors) as [Hu|Hu]; rewrite Hu in H200.
    + unfold respond in H200. rewrite handle_convert in H200. simpl in H200.
      unfold call in H200. simpl in H200.
      match type of H200 with context [unprocessable ?e] =>
        by destruct (unprocessable_cases e) as [Hu|Hu]; rewrite Hu in H200 end.
  - intros (b & s & -> & Hm & Hu). fold (POST_convert b). unfold respond.
    by rewrite (handle_convert_valid _ _ Hm Hu).
Qed.

Example convert_rejects_null :
  status_code (respond app (POST_convert (JObj {[ "document_url" := JNull ]}))) = 422.
Proof. reflexivity. Qed.

Example convert_rejects_missing_key :
  status_code (respond app (POST_convert (JObj {[ "url" := JStr "http://x/doc.pdf" ]})))
  = 422.
Proof. reflexivity. Qed.

Example convert_rejects_bare_string :
  status_code (respond app (POST_convert (JStr "http://x/doc.pdf"))) = 422.
Proof. reflexivity. Qed.

Example convert_rejects_text_plain :
  status_code (respond app {| method := POST; path := "/convert";
                              body := Raw "document_url=http://x/doc.pdf" |})
  = 422.
Proof. reflexivity. Qed.

(** X2 ([ConvertRequest], [convert]): when [document_url] is a string, the
    response to a submission depends on the body through that string only.
    Two bodies with the same string [document_url] get equal responses,
    whatever other keys they have. *)
Theorem convert_depends_on_document_url_only b1 b2 s :
  member "document_url" b1 = Some (JStr s) →
  member "document_url" b2 = Some (JStr s) →
  respond app (POST_convert b1) = respond app (POST_convert b2).
Proof.
  intros Hm1 Hm2. unfold respond.
  by rewrite (handle_convert_str _ _ Hm1), (handle_convert_str _ _ Hm2).
Qed.

Lemma convert_depends_on_document_url_only_witness :
  member "document_url" doc_pdf = Some (JStr "http://x/doc.pdf")
  ∧ member "document_url" doc_pdf_more = Some (JStr "http://x/doc.pdf")
  ∧ respond app (POST_convert doc_pdf) = respond app (POST_convert doc_pdf_more).
Proof.
  split; [reflexivity|]. split; [reflexivity|].
  apply (convert_depends_on_document_url_only doc_pdf doc_pdf_more "http://x/doc.pdf");
    reflexivity.
Defined.

(** X3 ([convert]): the echo loses nothing.  When two submissions get the
    same response and that response is a 200, their bodies have the same
    [document_url]; so accepted submissions with different [document_url]
    get different responses. *)
Theorem convert_echo_injective b1 b2 :
  status_code (respond app (POST_convert b1)) = 200 →
  respond app (POST_convert b1) = respond app (POST_convert b2) →
  member "document_url" b1 = member "document_url" b2.
Proof.
  intros H200 Heq.
  assert (H200' : status_code (respond app (POST_convert b2)) = 200) by by rewrite <- Heq.
  apply (proj1 (convert_accepts_exactly_string_document_url _)) in H200
    as (b1' & s1 & [= <-] & Hm1 & Hu1).
  apply (proj1 (convert_accepts_exactly_string_document_url _)) in H200'
    as (b2' & s2 & [= <-] & Hm2 & Hu2).
  unfold respond in Heq.
  rewrite (handle_convert_valid _ _ Hm1 Hu1), (handle_convert_valid _ _ Hm2 Hu2) in Heq.
  simpl in Heq. apply (f_equal (field "document_url")) in Heq.
  change (Some (JStr s1) = Some (JStr s2)) in Heq. by rewrite Hm1, Hm2.
Qed.

Lemma convert_echo_injective_witness :
  status_code (respond app (POST_convert doc_pdf_more)) = 200
  ∧ respond app (POST_convert doc_pdf_more) = respond app (POST_convert doc_pdf)
  ∧ member "document_url" doc_pdf_more = member "document_url" doc_pdf.
Proof.
  split; [reflexivity|]. split; [reflexivity|].
  apply (convert_echo_injective doc_pdf_more doc_pdf); reflexivity.
Defined.

(** X4 ([health]): /health answers GET only, and never looks at a body.
    A GET gets the 200 response whatever body it carries; every other
    method gets 405 from the router, and [health] is not called. *)
Theorem health_get_only (m : Method) (ob : Body) :
  respond app {| method := m; path := "/health"; body := ob |}
  = if bool_decide (m = GET)
    then {| status_code := 200;
            content := Returned {[ "status" := JStr "ok";
                                   "service" := JStr "pipeline" ]} |}
    else {| status_code := 405; content := Detail MethodNotAllowed |}.
Proof. by destruct m. Qed.

(** X5 ([convert]): /convert answers POST only, and the method is looked
    at before the body.  A request to /convert with any other method gets
    405 whether its body would validate or not: a valid body is not
    accepted, an invalid one is not reported as 422, and the application
    is unchanged. *)
Theorem convert_post_only (m : Method) (ob : Body) :
  m ≠ POST →
  handle app {| method := m; path := "/convert"; body := ob |}
  = ({| status_code := 405; content := Detail MethodNotAllowed |}, app).
Proof. by destruct m. Qed.

Lemma convert_post_only_witness :
  PUT ≠ POST
  ∧ handle app {| method := PUT; path := "/convert"; body := Parsed doc_pdf |}
    = ({| status_code := 405; content := Detail MethodNotAllowed |}, app).
Proof.
  split; [discriminate|].
  apply (convert_post_only PUT (Parsed doc_pdf)). discriminate.
Defined.

(** X6 ([convert], [ConvertRequest]): what [convert] returns is itself a
    body the schema accepts, and submitting it returns it again: for every
    submission answered with a returned object [d], the submission of [d]
    gets the same response. *)
Theorem convert_response_resubmitted b (d : gmap string Json) :
  content (respond app (POST_convert b)) = Returned d →
  respond app (POST_convert (JObj d)) = respond app (POST_convert b).
Proof.
  intros Hc. unfold respond in *.
  destruct (member "document_url" b) as [[| | | |s| |]|] eqn:Hm.
  5: { rewrite (handle_convert_str _ _ Hm) in *. simpl in Hc.
       destruct (utf8 s) eqn:Hu; [|discriminate Hc].
       injection Hc as <-. by rewrite (handle_convert_valid _ s). }
  all: destruct (handle_convert_invalid b) as [errors Hh]; [by rewrite Hm|];
    rewrite Hh in Hc; simpl in Hc;
    by destruct (unprocessable_cases errors) as [Hu|Hu]; rewrite Hu in Hc.
Qed.

Lemma convert_response_resubmitted_witness :
  content (respond app (POST_convert doc_pdf_more))
  = Returned {[ "status" := JStr "ok";
                "message" := JStr "conversion endpoint placeholder";
                "document_url" := JStr "http://x/doc.pdf" ]}
  ∧ respond app (POST_convert
      (JObj {[ "status" := JStr "ok";
               "message" := JStr "conversion endpoint placeholder";
               "document_url" := JStr "http://x/doc.pdf" ]}))
    = respond app (POST_convert doc_pdf_more).
Proof.
  split; [reflexivity|].
  apply (convert_response_resubmitted doc_pdf_more). reflexivity.
Defined.
